(** * Electricity consumption dashboard: the data pipeline of [app.py]

    A shallow embedding of the column detection, the data preparation and the
    [update_dashboard] callback of [app.py], with the properties the
    specification states about them.

    The development has two models of the data.
    - The first keeps a row as a record and a number as an exact rational
      ([Qc]; NaN is [None]).  It is used for what does not depend on how
      numbers are rounded: which column a role gets, which rows a chart or a
      total is taken over, what the callback reads and writes, what the
      selector offers.
    - The second, [Machine], keeps a frame as its labelled, typed columns and
      computes as the script does: [int64] products that wrap around,
      binary64 division, multiplication and sums, and the digits [:.2f]
      prints for a binary64 value.  It is used for the values of
      [Energy_kWh] and [Cost], for the summary line and for line 43.

    Modelling conventions.
    - Strings are byte strings ([String.string], UTF-8 for the few non-ASCII
      literals of the script); [str.lower] acts on the ASCII letters, which
      is all the keyword tests of the script can observe.
    - A CSV cell read by pandas is a number, a text or an empty cell (NaN).
    - A timestamp ([datetime64]) is an integer; NaT is [None].
    - The parser inside [pd.to_datetime] and the order in which the library
      adds up a column are parameters: they are library code.
    - [LibraryError] stands for an exception raised inside pandas whose class
      is not tracked.
    - [col_map] is a Python dict with string keys: a [gmap string string]. *)

From Stdlib Require Import ZArith QArith Qabs Qcanon String Ascii DecimalString.
From Stdlib Require Import Floats.
From stdpp Require Import gmap strings list sorting.

Local Open Scope string_scope.

(** ** Strings *)

(** [c.lower()] on one byte: the letters [A]..[Z] move to [a]..[z]. *)
Definition lower_ascii (c : ascii) : ascii :=
  let n := N_of_ascii c in
  if ((65 <=? n) && (n <=? 90))%N then ascii_of_N (n + 32) else c.

(** [s.lower()] *)
Fixpoint lower (s : string) : string :=
  match s with
  | EmptyString => EmptyString
  | String c s' => String (lower_ascii c) (lower s')
  end.

(** [kw in s]: [kw] occurs in [s] as a contiguous substring. *)
Fixpoint contains (kw s : string) : bool :=
  String.prefix kw s ||
  match s with
  | EmptyString => false
  | String _ s' => contains kw s'
  end.

(** ** Column detection (lines 21-37) *)

(** One turn of the loop [for col in df.columns]: the [if]/[elif] chain. *)
Definition detect_step (col_map : gmap string string) (col : string)
  : gmap string string :=
  let cname := lower col in
  if contains "date" cname || contains "day" cname then
    <["Date" := col]> col_map
  else if contains "device" cname || contains "appliance" cname then
    <["Device" := col]> col_map
  else if contains "power" cname || contains "watt" cname then
    <["Power_Watts" := col]> col_map
  else if contains "hour" cname || contains "usage" cname then
    <["Hours_Used" := col]> col_map
  else col_map.

(** The whole loop, from [col_map = {}]. *)
Definition detect_columns (columns : list string) : gmap string string :=
  foldl detect_step ∅ columns.

Definition required_cols : list string :=
  ["Date"; "Device"; "Power_Watts"; "Hours_Used"].

(** [missing = [c for c in required_cols if c not in col_map]] *)
Definition missing (col_map : gmap string string) : list string :=
  filter (λ c, col_map !! c = None) required_cols.

(** Python's [repr] of a list of strings that hold no quote or escape,
    as the f-string of line 37 prints [missing]. *)
Fixpoint repr_items (l : list string) : string :=
  match l with
  | [] => ""
  | [x] => "'" ++ x ++ "'"
  | x :: l' => "'" ++ x ++ "', " ++ repr_items l'
  end.

Definition repr_list (l : list string) : string := "[" ++ repr_items l ++ "]".

(** The exceptions that end start-up. *)
Inductive exn : Type :=
  | FileNotFoundError (msg : string)
  | ValueError (msg : string)
  | TypeError
  | LibraryError.

Inductive result (A : Type) : Type :=
  | Ok (a : A)
  | Raise (e : exn).
Arguments Ok {A} a.
Arguments Raise {A} e.

Global Instance result_ret : MRet result := λ A a, Ok a.
Global Instance result_bind : MBind result := λ A B k r,
  match r with
  | Ok a => k a
  | Raise e => Raise e
  end.

Definition detect_error (miss : list string) : exn :=
  ValueError ("⚠️ Could not detect columns in CSV: " ++ repr_list miss).

(** Lines 21-37: the mapping, or the [ValueError] that names what is missing. *)
Definition resolve_columns (columns : list string)
  : result (gmap string string) :=
  let col_map := detect_columns columns in
  match missing col_map with
  | [] => Ok col_map
  | m :: ms => Raise (detect_error (m :: ms))
  end.

(** *** The resolver as the specification words it *)

(** The roles in their fixed sequence, each with its keywords. *)
Definition role_keywords : list (string * list string) :=
  [("Date", ["date"; "day"]);
   ("Device", ["device"; "appliance"]);
   ("Power_Watts", ["power"; "watt"]);
   ("Hours_Used", ["hour"; "usage"])].

(** The column name contains, case-insensitively, one of the keywords. *)
Definition matches (kws : list string) (col : string) : bool :=
  existsb (λ kw, contains kw (lower col)) kws.

(** The first role, in the fixed sequence, whose keywords the name matches. *)
Definition first_role (col : string) : option string :=
  fst <$> List.find (λ rk, matches rk.2 col) role_keywords.

(** Every role has some column whose name contains one of its keywords. *)
Definition keyword_present (columns : list string) : Prop :=
  ∀ rk, rk ∈ role_keywords → ∃ c, c ∈ columns ∧ matches rk.2 c = true.

(** The roles no column is assigned to, in the order of [required_cols]. *)
Definition unassigned (columns : list string) : list string :=
  filter (λ role, Forall (λ c, first_role c ≠ Some role) columns)
    required_cols.

(** ** The table read from the CSV file (lines 13-16) *)

Inductive cell : Type :=
  | Num (q : Qc)
  | Text (s : string)
  | Empty.

(** What [pd.read_csv] returns: the header, in file order, and the records,
    each a mapping from column name to cell.  A column a record lacks reads
    as an empty cell. *)
Record RawFrame : Type := {
  columns : list string;
  records : list (gmap string cell)
}.

Definition CSV_FILE : string := "electricity_data.csv".

(** Lines 13-16; [file] is what the file system holds at [CSV_FILE]. *)
Definition read_csv (file : option RawFrame) : result RawFrame :=
  match file with
  | None =>
      Raise (FileNotFoundError
        ("⚠️ CSV file '" ++ CSV_FILE ++ "' not found in current folder."))
  | Some raw => Ok raw
  end.

(** ** Data preparation (lines 39-46) *)

Record Row : Type := {
  Date : option Z;
  Device : cell;
  Power_Watts : option Qc;
  Hours_Used : option Qc;
  Energy_kWh : option Qc;
  Cost : option Qc
}.

(** A frame is the list of its rows. *)
Abbreviation DataFrame := (list Row).

Definition COST_PER_KWH : Qc := Q2Qc (15 # 100).

(** Arithmetic of a numeric column: NaN is absorbing. *)
Definition nan_mul (a b : option Qc) : option Qc :=
  x ← a; y ← b; Some (x * y)%Qc.

Definition nan_div (a b : option Qc) : option Qc :=
  x ← a; y ← b; Some (x / y)%Qc.

(** [df.rename(columns={v: k for k, v in col_map.items()})] gives the source
    column [col_map[k]] the label [k]; [renamed k] is the cell then read
    under [k]. *)
Definition renamed (col_map : gmap string string) (k : string)
    (r : gmap string cell) : cell :=
  match col_map !! k with
  | Some v => default Empty (r !! v)
  | None => Empty
  end.

(** After the renaming two columns carry the label [k] when the file has a
    column named [k] that is not the one mapped to [k].  [df[k]] is then a
    frame, not a column, and the first use of it fails inside the library
    ([pd.to_datetime], the assignment of [Energy_kWh], [.unique()]). *)
Definition duplicate_label (columns : list string)
    (col_map : gmap string string) : bool :=
  existsb (λ k, bool_decide (k ∈ columns ∧ col_map !! k ≠ Some k))
    required_cols.

(** A cell of a column used in arithmetic.  A column that holds a text is
    an [object] column, and [(str * x) / 1000] raises [TypeError]. *)
Definition to_numeric (c : cell) : option (option Qc) :=
  match c with
  | Num q => Some (Some q)
  | Empty => Some None
  | Text _ => None
  end.

Section Prepare.

(** [pd.to_datetime(x, errors="coerce")] on one value: the timestamp, or
    NaT ([None]) when [x] does not parse. *)
Variable to_datetime : cell → option Z.

(** Lines 43-46 on one record. *)
Definition prepare_row (col_map : gmap string string)
    (r : gmap string cell) : option Row :=
  power ← to_numeric (renamed col_map "Power_Watts" r);
  hours ← to_numeric (renamed col_map "Hours_Used" r);
  let energy := nan_div (nan_mul power hours) (Some (Q2Qc 1000)) in
  Some {| Date := to_datetime (renamed col_map "Date" r);
          Device := renamed col_map "Device" r;
          Power_Watts := power;
          Hours_Used := hours;
          Energy_kWh := energy;
          Cost := nan_mul energy (Some COST_PER_KWH) |}.

(** Lines 39-46. *)
Definition prepare (raw : RawFrame) (col_map : gmap string string)
  : result DataFrame :=
  if duplicate_label (columns raw) col_map then Raise LibraryError
  else match mapM (prepare_row col_map) (records raw) with
       | Some df => Ok df
       | None => Raise TypeError
       end.

(** Lines 13-46: the data set the dashboard is built on, or the exception
    that ends the process before the application exists. *)
Definition load (file : option RawFrame) : result DataFrame :=
  raw ← read_csv file;
  col_map ← resolve_columns (columns raw);
  prepare raw col_map.

End Prepare.

(** ** Aggregation: what [groupby(...).sum()] and [.sum()] compute *)

Global Instance cell_eq_decision : EqDecision cell.
Proof. solve_decision. Defined.

(** [column == value], elementwise: NaN is equal to nothing. *)
Definition cell_eqb (a b : cell) : bool :=
  match a, b with
  | Empty, _ | _, Empty => false
  | _, _ => bool_decide (a = b)
  end.

(** The order group keys are sorted in: numbers by value, texts by code
    point, numbers first. *)
Definition cell_leb (a b : cell) : bool :=
  match a, b with
  | Empty, _ => true
  | _, Empty => false
  | Num x, Num y => Qle_bool x y
  | Num _, Text _ => true
  | Text _, Num _ => false
  | Text s, Text t => String.leb s t
  end.

Definition cell_le (a b : cell) : Prop := cell_leb a b = true.

Global Instance cell_le_decision : RelDecision cell_le.
Proof. intros a b. unfold cell_le. apply _. Defined.

(** The group key of a row under [groupby("Device")]: rows whose key is NaN
    belong to no group. *)
Definition device_key (r : Row) : option cell :=
  match Device r with
  | Empty => None
  | c => Some c
  end.

(** [column.sum()]: NaN entries are skipped, the empty sum is 0. *)
Definition nansum (val : Row → option Qc) (df : DataFrame) : Qc :=
  foldr (λ r acc, (default 0 (val r) + acc)%Qc) 0%Qc df.

Section GroupBy.

Context {K : Type} `{EqDecision K}.
Context (R : relation K) `{∀ x y, Decision (R x y)}.

(** The distinct keys, NaN dropped, in ascending order. *)
Definition group_keys (key : Row → option K) (df : DataFrame) : list K :=
  merge_sort R (remove_dups (omap key df)).

(** [df.groupby(key, as_index=False)[val].sum()]: one entry per key, with
    the sum of [val] over the rows of that key. *)
Definition groupby_sum (key : Row → option K) (val : Row → option Qc)
    (df : DataFrame) : list (K * Qc) :=
  (λ k, (k, nansum val (filter (λ r, key r = Some k) df)))
    <$> group_keys key df.

End GroupBy.



(** ** Formatting: [f"{x:.2f}"] *)

(** Nearest integer, ties to the even one. *)
Definition round_half_even (q : Q) : Z :=
  let d := Z.pos (Qden q) in
  let fl := (Qnum q / d)%Z in
  let r := (Qnum q mod d)%Z in
  match (2 * r ?= d)%Z with
  | Lt => fl
  | Gt => (fl + 1)%Z
  | Eq => if Z.even fl then fl else (fl + 1)%Z
  end.

(** The decimal digits of a natural number. *)
Definition digits (n : Z) : string :=
  NilZero.string_of_uint (N.to_uint (Z.to_N n)).

(** Sign of the value, integer part, point, two decimals. *)
Definition format_2f (x : Qc) : string :=
  let cents := round_half_even (Qabs (this x) * 100)%Q in
  (if Qlt_le_dec x 0 then "-" else "") ++
  digits (cents / 100) ++ "." ++
  digits (cents mod 100 / 10) ++ digits (cents mod 10).

(** ** The callback (lines 87-109) *)

(** A figure is the chart kind, its title and the table it plots. *)
Inductive chart : Type := Line | Bar | Area.

Record Figure (K : Type) : Type := {
  kind : chart;
  title : string;
  points : list (K * Qc)
}.
Arguments kind {K}.
Arguments title {K}.
Arguments points {K}.

(** The callback reads the module-level [df]: a computation over a store
    that holds it. *)
Definition State (S A : Type) : Type := S → A * S.

Definition sret {S A} (a : A) : State S A := λ s, (a, s).

Definition sbind {S A B} (m : State S A) (k : A → State S B) : State S B :=
  λ s, let (a, s') := m s in k a s'.

Definition sget {S} : State S S := λ s, (s, s).

Definition sput {S} (s' : S) : State S unit := λ _, (tt, s').

Notation "'let*' x ':=' m 'in' k" := (sbind m (λ x, k))
  (at level 10, x name, m at level 100, k at level 200).

(** What the callback returns: [fig1, fig2, fig3, summary]. *)
Definition Outputs : Type := Figure Z * Figure cell * Figure Z * string.

(** The f-string of line 107. *)
Definition summary_text (total_energy total_cost : Qc) : string :=
  "🔋 Total Energy Used: " ++ format_2f total_energy ++
  " kWh | 💰 Total Cost: $" ++ format_2f total_cost.

(** Line 88: the whole frame for "All", else the rows of the device. *)
Definition filter_device (selected_device : cell) (df : DataFrame)
  : DataFrame :=
  if bool_decide (selected_device = Text "All") then df
  else filter (λ r, cell_eqb (Device r) selected_device = true) df.

(** Lines 87-109.  Both uses of [df] read the module-level name. *)
Definition update_dashboard (selected_device : cell)
  : State DataFrame Outputs :=
  let* df := sget in
  let filtered_df := filter_device selected_device df in
  let daily := groupby_sum Z.le Date Energy_kWh filtered_df in
  let fig1 :=
    {| kind := Line; title := "Daily Energy Consumption (kWh)";
       points := daily |} in
  let* df := sget in
  let device_sum := groupby_sum cell_le device_key Energy_kWh df in
  let fig2 :=
    {| kind := Bar; title := "Total Energy by Device";
       points := device_sum |} in
  let daily_cost := groupby_sum Z.le Date Cost filtered_df in
  let fig3 :=
    {| kind := Area; title := "Daily Cost Trend"; points := daily_cost |} in
  let total_energy := nansum Energy_kWh filtered_df in
  let total_cost := nansum Cost filtered_df in
  let summary := summary_text total_energy total_cost in
  sret (fig1, fig2, fig3, summary).


(** The four outputs of one call, on the data set [df]. *)
Definition outputs (df : DataFrame) (selected_device : cell) : Outputs :=
  fst (update_dashboard selected_device df).

Definition fig1_of (o : Outputs) : Figure Z := o.1.1.1.
Definition fig3_of (o : Outputs) : Figure Z := o.1.2.
Definition summary_of (o : Outputs) : string := o.2.

(** ** The layout (lines 55-76): the device selector *)

(** [series.unique()]: the distinct values, in order of first appearance
    (NaN once). *)
Fixpoint unique_from (seen l : list cell) : list cell :=
  match l with
  | [] => []
  | x :: l' =>
      if decide (x ∈ seen) then unique_from seen l'
      else x :: unique_from (x :: seen) l'
  end.

Definition unique (l : list cell) : list cell := unique_from [] l.

Definition is_text (c : cell) : bool :=
  match c with
  | Text _ => true
  | _ => false
  end.

Definition is_nan (c : cell) : bool :=
  match c with
  | Empty => true
  | _ => false
  end.

(** One entry of the selector: [{"label": ..., "value": ...}]. *)
Record DropdownOption : Type := {
  label : cell;
  value : cell
}.

(** [value="All"] of line 64: what is selected when the page opens. *)
Definition initial_value : cell := Text "All".

Section Layout.

(** Every comparison with NaN is false, so the order in which [sorted] leaves
    a list of floats that holds NaN is the sorting algorithm's: a
    parameter. *)
Variable sort_with_nan : list cell → list cell.

(** [sorted(l)] on the values of one column.  A text and a float (NaN is
    one) do not compare: [TypeError], as soon as the list holds both. *)
Definition py_sorted (l : list cell) : result (list cell) :=
  if existsb is_text l && negb (forallb is_text l) then Raise TypeError
  else if existsb is_nan l then
    Ok (match l with
        | [] | [_] => l
        | _ => sort_with_nan l
        end)
  else Ok (merge_sort cell_le l).

(** Lines 62-63: "All Devices", then one entry per device. *)
Definition device_options (df : DataFrame) : result (list DropdownOption) :=
  devices ← py_sorted (unique (Device <$> df));
  Ok ({| label := Text "All Devices"; value := Text "All" |} ::
      ((λ d, {| label := d; value := d |}) <$> devices)).

Variable to_datetime : cell → option Z.

(** Lines 13-76: the data set and the selector, or the exception that ends
    the process. *)
Definition startup (file : option RawFrame)
  : result (list Row * list DropdownOption) :=
  df ← load to_datetime file;
  opts ← device_options df;
  Ok (df, opts).

End Layout.

(** The devices are all texts, or all numbers (no cell is empty). *)
Definition one_kind (df : DataFrame) : Prop :=
  (∀ r, r ∈ df → ∃ s, Device r = Text s) ∨
  (∀ r, r ∈ df → ∃ q, Device r = Num q).

(** ** The sample of the specification *)

(** The value of a decimal digit, and of a string of them. *)
Definition digit_value (c : ascii) : option Z :=
  let n := N_of_ascii c in
  if ((48 <=? n) && (n <=? 57))%N then Some (Z.of_N (n - 48)) else None.

Fixpoint number_value (acc : Z) (s : string) : option Z :=
  match s with
  | EmptyString => Some acc
  | String c s' => d ← digit_value c; number_value (10 * acc + d) s'
  end.

(** A stand-in for the library parser, enough for the sample: a text
    [YYYY-MM-DD] becomes the integer [YYYYMMDD] (which orders dates as the
    calendar does), anything else is NaT. *)
Definition iso_date (c : cell) : option Z :=
  match c with
  | Text s =>
      if bool_decide (String.length s = 10%nat ∧
                      String.get 4 s = Some "-"%char ∧
                      String.get 7 s = Some "-"%char)
      then number_value 0
             (substring 0 4 s ++ substring 5 2 s ++ substring 8 2 s)
      else None
  | _ => None
  end.

(** One record of a file with the columns Date, Device, Power, Hours. *)
Definition record (date device : cell) (power hours : Z)
  : gmap string cell :=
  list_to_map [("Date", date); ("Device", device);
               ("Power", Num (Q2Qc (inject_Z power)));
               ("Hours", Num (Q2Qc (inject_Z hours)))].

Definition header : list string := ["Date"; "Device"; "Power"; "Hours"].

(** Device A: (2025-01-01, 1000 W, 2 h), (2025-01-02, 1000 W, 3 h);
    device B: (2025-01-01, 500 W, 4 h). *)
Definition sample_csv : RawFrame :=
  {| columns := header;
     records := [record (Text "2025-01-01") (Text "A") 1000 2;
                 record (Text "2025-01-02") (Text "A") 1000 3;
                 record (Text "2025-01-01") (Text "B") 500 4] |}.

(** A file whose device column holds numbers, with one cell left empty. *)
Definition unlabelled_csv : RawFrame :=
  {| columns := header;
     records := [record (Text "2025-01-01") (Num (Q2Qc 1)) 1000 2;
                 record (Text "2025-01-02") Empty 1000 3] |}.

(** The sample with the date of its second record unparsable. *)
Definition undated_csv : RawFrame :=
  {| columns := header;
     records := [record (Text "2025-01-01") (Text "A") 1000 2;
                 record (Text "yesterday") (Text "A") 1000 3;
                 record (Text "2025-01-01") (Text "B") 500 4] |}.

(** One record, with an unparsable date and an empty device cell. *)
Definition undated_unlabelled_csv : RawFrame :=
  {| columns := header;
     records := [record (Text "yesterday") Empty 1000 2] |}.

(** A prepared row, its derived fields computed as lines 45-46 do. *)
Definition row (date : option Z) (device : cell) (power hours : Z) : Row :=
  let p := Some (Q2Qc (inject_Z power)) in
  let h := Some (Q2Qc (inject_Z hours)) in
  let e := nan_div (nan_mul p h) (Some (Q2Qc 1000)) in
  {| Date := date; Device := device; Power_Watts := p; Hours_Used := h;
     Energy_kWh := e; Cost := nan_mul e (Some COST_PER_KWH) |}.

(** What [load] makes of [sample_csv]. *)
Definition sample_df : DataFrame :=
  [row (Some 20250101%Z) (Text "A") 1000 2;
   row (Some 20250102%Z) (Text "A") 1000 3;
   row (Some 20250101%Z) (Text "B") 500 4].

(** What [load] makes of [unlabelled_csv]. *)
Definition unlabelled_df : DataFrame :=
  [row (Some 20250101%Z) (Num (Q2Qc 1)) 1000 2;
   row (Some 20250102%Z) Empty 1000 3].

(** The row [load] makes of the record of [undated_unlabelled_csv]. *)
Definition undated_unlabelled_row : Row := row None Empty 1000 2.

(** What [load] makes of [undated_csv]. *)
Definition undated_df : DataFrame :=
  [row (Some 20250101%Z) (Text "A") 1000 2;
   row None (Text "A") 1000 3;
   row (Some 20250101%Z) (Text "B") 500 4].

(** * The numbers as the machine has them (lines 13-46 and 104-107)

    The definitions above keep exact numbers, which is enough to say which
    rows an aggregate is taken over.  This part models the arithmetic of the
    script itself: typed columns as pandas holds them, [int64] products that
    wrap around, binary64 division and multiplication, and the digits that
    [:.2f] prints for a binary64 value.  A frame keeps every column of the
    file, and two columns may end up under one label.  Boolean columns are
    not modelled. *)

Module Machine.

Local Set Warnings "-inexact-float".

Abbreviation float := PrimFloat.float.

(** A column of a frame, with the type pandas gives it: [int64] (no value
    missing), [float64] (NaN where a cell is empty), [object] (texts, and
    NaN, here [None], where a cell is empty), [datetime64] (NaT is [None]). *)
Inductive column : Type :=
  | Int64 (v : list Z)
  | Float64 (v : list float)
  | Object (v : list (option string))
  | Datetime (v : list (option Z)).

(** A frame: its columns with their labels, in order.  Two columns may carry
    one label (after a renaming). *)
Abbreviation frame := (list (string * column)).

(** One value of a column. *)
Inductive scalar : Type :=
  | IntV (z : Z)
  | FloatV (x : float)
  | StrV (s : string)
  | StampV (t : Z)
  | NaT.

Definition scalars (c : column) : list scalar :=
  match c with
  | Int64 v => IntV <$> v
  | Float64 v => FloatV <$> v
  | Object v =>
      (λ o, match o with Some s => StrV s | None => FloatV PrimFloat.nan end)
        <$> v
  | Datetime v =>
      (λ o, match o with Some t => StampV t | None => NaT end) <$> v
  end.

(** What is at [CSV_FILE]: nothing, something [pd.read_csv] rejects (an
    empty or malformed file), or a table.  [pd.read_csv] never returns two
    columns with one label, and all its columns have one length. *)
Inductive file : Type :=
  | Absent
  | Unreadable
  | Csv (df : frame).

(** Lines 13-16. *)
Definition read_csv (f : file) : result frame :=
  match f with
  | Absent =>
      Raise (FileNotFoundError
        ("⚠️ CSV file '" ++ CSV_FILE ++ "' not found in current folder."))
  | Unreadable => Raise LibraryError
  | Csv df => Ok df
  end.

(** [df[k]]: the columns labelled [k].  One column is a series, several are
    a frame, none is a [KeyError]. *)
Definition getitem (df : frame) (k : string) : list column :=
  (filter (λ lc, lc.1 = k) df).*2.

(** [df[k] = c]: every column labelled [k] becomes [c]; without one, [c] is
    appended. *)
Definition setitem (df : frame) (k : string) (c : column) : frame :=
  if bool_decide (k ∈ df.*1) then
    (λ lc, if bool_decide (lc.1 = k) then (k, c) else lc) <$> df
  else df ++ [(k, c)].

(** The label a column has after
    [df.rename(columns={v: k for k, v in col_map.items()})]. *)
Definition rename_label (col_map : gmap string string) (l : string)
  : string :=
  match List.find (λ k, bool_decide (col_map !! k = Some l)) required_cols with
  | Some k => k
  | None => l
  end.

(** Line 39. *)
Definition rename (col_map : gmap string string) (df : frame) : frame :=
  (λ lc, (rename_label col_map lc.1, lc.2)) <$> df.

(** *** Dates (line 43) *)

(** What the parser makes of one value: a timestamp, nothing (the cell was
    empty), or a failure. *)
Inductive parsed : Type :=
  | Stamp (t : Z)
  | Blank
  | Unparsable.

(** The [errors] argument of [pd.to_datetime]. *)
Inductive errors_mode : Type :=
  | errors_raise
  | errors_coerce.

Definition is_unparsable (p : parsed) : bool :=
  match p with
  | Unparsable => true
  | _ => false
  end.

Definition stamp (p : parsed) : option Z :=
  match p with
  | Stamp t => Some t
  | _ => None
  end.

(** *** Arithmetic (lines 44-46) *)

Definition COST_PER_KWH : float := 0.15%float.

(** The value an [int64] product keeps: the low 64 bits, signed. *)
Definition wrap64 (z : Z) : Z := ((z + 2 ^ 63) mod 2 ^ 64 - 2 ^ 63)%Z.

(** An [int64] as the nearest binary64. *)
Definition of_int64 (z : Z) : float :=
  if (z =? - 2 ^ 63)%Z then
    PrimFloat.opp
      (PrimFloat.mul (PrimFloat.of_uint63 (Uint63.of_Z (2 ^ 62))) 2%float)
  else if (z <? 0)%Z then
    PrimFloat.opp (PrimFloat.of_uint63 (Uint63.of_Z (- z)))
  else PrimFloat.of_uint63 (Uint63.of_Z z).

(** The column as binary64 values, when arithmetic with a float can use it:
    an [object] column can as long as it holds no text, a [datetime64] column
    cannot. *)
Definition as_floats (c : column) : option (list float) :=
  match c with
  | Int64 v => Some (of_int64 <$> v)
  | Float64 v => Some v
  | Object v =>
      if forallb (λ o, bool_decide (o = None)) v
      then Some ((λ _, PrimFloat.nan) <$> v)
      else None
  | Datetime _ => None
  end.

(** [a * b] on two series: [int64] times [int64] stays [int64] and wraps;
    otherwise both sides are binary64.  A text, sooner or later, raises
    [TypeError]. *)
Definition col_mul (a b : column) : result column :=
  match a, b with
  | Int64 x, Int64 y => Ok (Int64 (zip_with (λ p q, wrap64 (p * q)) x y))
  | _, _ =>
      match as_floats a, as_floats b with
      | Some x, Some y => Ok (Float64 (zip_with PrimFloat.mul x y))
      | _, _ => Raise TypeError
      end
  end.

(** [a / d] for a number [d]: true division, in binary64. *)
Definition col_div (a : column) (d : float) : result column :=
  match as_floats a with
  | Some x => Ok (Float64 ((λ v, PrimFloat.div v d) <$> x))
  | None => Raise TypeError
  end.

(** [a * k] for a float [k]. *)
Definition col_scale (a : column) (k : float) : result column :=
  match as_floats a with
  | Some x => Ok (Float64 ((λ v, PrimFloat.mul v k) <$> x))
  | None => Raise TypeError
  end.

(** The operand [df[k]] of an arithmetic operation.  When two columns carry
    the label it is a frame, and the statement that uses it fails inside the
    library. *)
Definition series (cols : list column) : result column :=
  match cols with
  | [c] => Ok c
  | _ => Raise LibraryError
  end.

(** Lines 45-46. *)
Definition derive (df : frame) : result frame :=
  power ← series (getitem df "Power_Watts");
  hours ← series (getitem df "Hours_Used");
  product ← col_mul power hours;
  energy ← col_div product 1000%float;
  let df := setitem df "Energy_kWh" energy in
  energy ← series (getitem df "Energy_kWh");
  cost ← col_scale energy COST_PER_KWH;
  Ok (setitem df "Cost" cost).

Section Load.

(** The library's date parser on one value of a column; the column is given
    too, because the format is inferred from it. *)
Variable parse_date : column → scalar → parsed.

(** [pd.to_datetime(arg, errors=...)].  On a frame with two columns of one
    label the library refuses to assemble dates: [ValueError].  On a series,
    [errors="coerce"] turns every failure into NaT; [errors="raise"] raises
    on the first. *)
Definition to_datetime (arg : list column) (errors : errors_mode)
  : result column :=
  match arg with
  | [] => Raise LibraryError
  | [c] =>
      let out := parse_date c <$> scalars c in
      match errors with
      | errors_coerce => Ok (Datetime (stamp <$> out))
      | errors_raise =>
          if existsb is_unparsable out then Raise LibraryError
          else Ok (Datetime (stamp <$> out))
      end
  | _ => Raise (ValueError "cannot assemble with duplicate keys")
  end.

(** Line 43. *)
Definition parse_dates (df : frame) : result frame :=
  dates ← to_datetime (getitem df "Date") errors_coerce;
  Ok (setitem df "Date" dates).

(** Lines 13-46. *)
Definition load (f : file) : result frame :=
  df ← read_csv f;
  col_map ← resolve_columns df.*1;
  df ← parse_dates (rename col_map df);
  derive df.

End Load.

(** *** One row of the derivation, as the specification words it *)


(** [Power_Watts * Hours_Used] on one row, in the arithmetic of the two
    values. *)
Definition times (p h : scalar) : option scalar :=
  match p, h with
  | IntV a, IntV b => Some (IntV (wrap64 (a * b)))
  | IntV a, FloatV y => Some (FloatV (PrimFloat.mul (of_int64 a) y))
  | FloatV x, IntV b => Some (FloatV (PrimFloat.mul x (of_int64 b)))
  | FloatV x, FloatV y => Some (FloatV (PrimFloat.mul x y))
  | _, _ => None
  end.

(** [... / 1000] on one row. *)
Definition per_thousand (v : scalar) : option float :=
  match v with
  | IntV a => Some (PrimFloat.div (of_int64 a) 1000%float)
  | FloatV x => Some (PrimFloat.div x 1000%float)
  | _ => None
  end.

(** *** The summary (lines 88 and 104-107) *)

(** The value of a finite binary64, exactly. *)
Definition exact_value (x : float) : option Q :=
  match Prim2SF x with
  | S754_zero _ => Some 0%Q
  | S754_finite s m e =>
      Some ((if s then -1 else 1) * (Z.pos m # 1) * (2 # 1) ^ e)%Q
  | _ => None
  end.

Definition sign_bit (x : float) : bool :=
  match Prim2SF x with
  | S754_zero s | S754_infinity s | S754_finite s _ _ => s
  | S754_nan => false
  end.

(** [f"{x:.2f}"]: the sign, then the decimal digits of the hundredth nearest
    to the exact value (ties to even). *)
Definition format_2f (x : float) : string :=
  match exact_value x with
  | Some q =>
      let cents := round_half_even (Qabs q * 100)%Q in
      (if sign_bit x then "-" else "") ++
      digits (cents / 100) ++ "." ++
      digits (cents mod 100 / 10) ++ digits (cents mod 10)
  | None =>
      if PrimFloat.is_nan x then "nan"
      else if sign_bit x then "-inf" else "inf"
  end.

(** [series == value], elementwise: numbers compare by value, texts by
    content, NaN equals nothing, a text never equals a number. *)
Definition eq_scalar (x sel : scalar) : bool :=
  match x, sel with
  | IntV a, IntV b => bool_decide (a = b)
  | IntV a, FloatV y => PrimFloat.eqb (of_int64 a) y
  | FloatV x, IntV b => PrimFloat.eqb x (of_int64 b)
  | FloatV x, FloatV y => PrimFloat.eqb x y
  | StrV s, StrV t => bool_decide (s = t)
  | _, _ => false
  end.

(** [selected_device == "All"] *)
Definition is_all (selected_device : scalar) : bool :=
  match selected_device with
  | StrV s => bool_decide (s = "All")
  | _ => false
  end.

(** The rows a boolean mask keeps. *)
Fixpoint keep {A} (mask : list bool) (v : list A) : list A :=
  match mask, v with
  | b :: mask', x :: v' => if b then x :: keep mask' v' else keep mask' v'
  | _, _ => []
  end.

(** [.sum()] skips NaN by adding 0 in its place. *)
Definition fillna0 (x : float) : float :=
  if PrimFloat.is_nan x then 0%float else x.

Section Summary.

(** The library's sum of binary64 values: in which order it adds them is
    its own. *)
Variable np_sum : list float → float.

(** [filtered_df[k].sum()] for a float column [k]; [mask] is [None] when
    every row is kept. *)
Definition total (mask : option (list bool)) (cols : list column)
  : result float :=
  match cols with
  | [Float64 v] =>
      Ok (np_sum (fillna0 <$> match mask with
                              | Some m => keep m v
                              | None => v
                              end))
  | _ => Raise LibraryError
  end.

(** Lines 88 and 104-107: the fourth output of [update_dashboard].  The
    callback runs only once the layout is built, which takes one Device
    column (line 63): with two, nothing is served. *)
Definition summary (df : frame) (selected_device : scalar) : result string :=
  mask ← (if is_all selected_device then Ok None
          else device ← series (getitem df "Device");
               Ok (Some ((λ x, eq_scalar x selected_device)
                           <$> scalars device)));
  total_energy ← total mask (getitem df "Energy_kWh");
  total_cost ← total mask (getitem df "Cost");
  Ok ("🔋 Total Energy Used: " ++ format_2f total_energy ++
      " kWh | 💰 Total Cost: $" ++ format_2f total_cost).

End Summary.

(** *** Samples *)

(** A stand-in for the library parser: ISO dates, by [iso_date]. *)
Definition iso_parse (_ : column) (v : scalar) : parsed :=
  match v with
  | StrV s =>
      match iso_date (Text s) with
      | Some t => Stamp t
      | None => Unparsable
      end
  | IntV z => Stamp z
  | _ => Blank
  end.

(** One order of adding, for the samples: from the left, starting at 0. *)
Definition left_sum (v : list float) : float :=
  foldl PrimFloat.add 0%float v.

(** The sample of the specification as [pd.read_csv] types it. *)
Definition sample_csv : frame :=
  [("Date", Object [Some "2025-01-01"; Some "2025-01-02"; Some "2025-01-01"]);
   ("Device", Object [Some "A"; Some "A"; Some "B"]);
   ("Power", Int64 [1000; 1000; 500]%Z);
   ("Hours", Int64 [2; 3; 4]%Z)].

(** What it loads to: energies 2.0, 3.0, 2.0; costs 0.3,
    0.44999999999999996, 0.3. *)
Definition sample_frame : frame :=
  [("Date", Datetime [Some 20250101; Some 20250102; Some 20250101]%Z);
   ("Device", Object [Some "A"; Some "A"; Some "B"]);
   ("Power_Watts", Int64 [1000; 1000; 500]%Z);
   ("Hours_Used", Int64 [2; 3; 4]%Z);
   ("Energy_kWh", Float64 [2; 3; 2]%float);
   ("Cost", Float64 [0x1.3333333333333p-2; 0x1.cccccccccccccp-2;
                     0x1.3333333333333p-2]%float)].

(** Two appliances of 15 W and 5 W, one hour each, and a date that does not
    parse. *)
Definition small_csv : frame :=
  [("Day", Object [Some "2025-01-01"; Some "yesterday"]);
   ("Appliance", Object [Some "lamp"; Some "clock"]);
   ("Watts", Int64 [15; 5]%Z);
   ("Usage (h)", Int64 [1; 1]%Z)].

(** What it loads to: energies 0.015 and 0.005, costs 0.0022499999999999998
    and 0.00075. *)
Definition small_frame : frame :=
  [("Date", Datetime [Some 20250101%Z; None]);
   ("Device", Object [Some "lamp"; Some "clock"]);
   ("Power_Watts", Int64 [15; 5]%Z);
   ("Hours_Used", Int64 [1; 1]%Z);
   ("Energy_kWh", Float64 [0x1.eb851eb851eb8p-7; 0x1.47ae147ae147bp-8]%float);
   ("Cost", Float64 [0x1.26e978d4fdf3bp-9; 0x1.89374bc6a7efap-11]%float)].

(** Four thousand million watts for four thousand million hours. *)
Definition huge_csv : frame :=
  [("Date", Object [Some "2025-01-01"]);
   ("Device", Object [Some "A"]);
   ("Power", Int64 [4000000000]%Z);
   ("Hours", Int64 [4000000000]%Z)].

(** What it loads to: energy -2446744073709551.5, cost
    -367011611056432.7. *)
Definition huge_frame : frame :=
  [("Date", Datetime [Some 20250101%Z]);
   ("Device", Object [Some "A"]);
   ("Power_Watts", Int64 [4000000000]%Z);
   ("Hours_Used", Int64 [4000000000]%Z);
   ("Energy_kWh", Float64 [-0x1.16299febd4fdfp+51]%float);
   ("Cost", Float64 [-0x1.4dcb8cb49930bp+48]%float)].


(** A file with a column "Device" and a column "Appliance". *)
Definition two_devices_csv : frame :=
  [("Date", Object [Some "2025-01-01"]);
   ("Device", Object [Some "A"]);
   ("Appliance", Object [Some "kettle"]);
   ("Power", Int64 [1000]%Z);
   ("Hours", Int64 [2]%Z)].

End Machine.

(** * Properties *)

(** ** Column detection *)

Lemma detect_step_first_role (col_map : gmap string string) (col : string) :
  detect_step col_map col =
  match first_role col with
  | Some role => <[role := col]> col_map
  | None => col_map
  end.
Proof.
  unfold detect_step, first_role, role_keywords, matches.
  cbn -[contains lower].
  repeat (destruct (contains _ _); cbn -[contains lower]; try reflexivity).
Qed.

Lemma foldl_detect_step_lookup (columns : list string) :
  ∀ (col_map : gmap string string) (role : string),
    foldl detect_step col_map columns !! role =
    match last (filter (λ c, first_role c = Some role) columns) with
    | Some c => Some c
    | None => col_map !! role
    end.
Proof.
  induction columns as [|c columns IH]; intros col_map role; [done|].
  cbn [foldl]. rewrite IH, filter_cons, detect_step_first_role.
  destruct (decide (first_role c = Some role)) as [Hc|Hc].
  - rewrite last_cons, Hc.
    destruct (last _); [done|]. by rewrite lookup_insert_eq.
  - destruct (last _); [done|].
    destruct (first_role c) as [role'|]; [|done].
    rewrite lookup_insert_ne; [done|congruence].
Qed.

Lemma detect_columns_lookup (columns : list string) (role : string) :
  detect_columns columns !! role =
  last (filter (λ c, first_role c = Some role) columns).
Proof.
  unfold detect_columns. rewrite foldl_detect_step_lookup.
  destruct (last _); [done|]. apply lookup_empty.
Qed.

Lemma filter_nil_Forall {A} (P : A → Prop) `{∀ x, Decision (P x)}
    (l : list A) :
  filter P l = [] ↔ Forall (λ x, ¬ P x) l.
Proof.
  induction l as [|x l IH]; [by split; [constructor|]|].
  rewrite filter_cons, Forall_cons. destruct (decide (P x)); [|tauto].
  split; [discriminate|tauto].
Qed.

Lemma detect_columns_None (columns : list string) (role : string) :
  detect_columns columns !! role = None ↔
  Forall (λ c, first_role c ≠ Some role) columns.
Proof.
  by rewrite detect_columns_lookup, last_None, filter_nil_Forall.
Qed.

Lemma missing_unassigned (columns : list string) :
  missing (detect_columns columns) = unassigned columns.
Proof.
  unfold missing, unassigned. apply list_filter_iff. intros role.
  apply detect_columns_None.
Qed.

Lemma unassigned_nil (columns : list string) :
  unassigned columns = [] ↔
  ∀ role, role ∈ required_cols →
    ∃ c, c ∈ columns ∧ first_role c = Some role.
Proof.
  unfold unassigned. rewrite filter_nil_Forall, Forall_forall.
  split; intros Hall role Hrole.
  - apply Hall, not_Forall_Exists in Hrole; [|apply _].
    apply Exists_exists in Hrole as (c & Hin & Hc). exists c. split; [done|].
    by apply dec_stable.
  - destruct (Hall role Hrole) as (c & Hin & Hc). intros Hno.
    rewrite Forall_forall in Hno. by apply (Hno c).
Qed.

Lemma resolve_columns_unassigned (columns : list string) :
  resolve_columns columns =
  if decide (unassigned columns = []) then Ok (detect_columns columns)
  else Raise (detect_error (unassigned columns)).
Proof.
  unfold resolve_columns. rewrite missing_unassigned.
  by destruct (unassigned columns).
Qed.

(** C7: a column is assigned to at most one role, the first role of the
    sequence Date, Device, Power_Watts, Hours_Used whose keywords its name
    matches, and to no later one; the mapping of a role is the last column,
    in iteration order, assigned to it. *)
Theorem detect_columns_first_role_last_column (columns : list string) :
  (∀ col_map col,
     detect_step col_map col =
     match first_role col with
     | Some role => <[role := col]> col_map
     | None => col_map
     end) ∧
  (∀ role,
     detect_columns columns !! role =
     last (filter (λ c, first_role c = Some role) columns)).
Proof.
  split.
  - apply detect_step_first_role.
  - apply detect_columns_lookup.
Qed.

(** C3, as stated, fails: every role has a column whose name contains one of
    its keywords ("Hours_Per_Day" contains "hour"), but that column also
    contains "day" and is taken for Date, so Hours_Used is reported missing. *)
Lemma keyword_present_not_complete :
  keyword_present ["Date"; "Device"; "Power_Watts"; "Hours_Per_Day"] ∧
  resolve_columns ["Date"; "Device"; "Power_Watts"; "Hours_Per_Day"] =
    Raise (ValueError "⚠️ Could not detect columns in CSV: ['Hours_Used']").
Proof.
  split; [|by vm_compute].
  intros rk Hrk. unfold role_keywords in Hrk.
  repeat (apply elem_of_cons in Hrk as [->|Hrk]);
    [exists "Date" | exists "Device" | exists "Power_Watts"
    | exists "Hours_Per_Day" | by apply not_elem_of_nil in Hrk];
    (split; [set_solver | by vm_compute]).
Qed.

(** C3, amended: the mapping is complete exactly when every role has a column
    assigned to it (a column whose first matching role it is); otherwise
    [ValueError] names exactly the roles without one, and loading ends with
    that exception: no data set, no application. *)
Theorem resolve_columns_complete_iff (columns : list string) :
  ((∃ col_map, resolve_columns columns = Ok col_map ∧
      ∀ role, role ∈ required_cols → is_Some (col_map !! role)) ↔
   (∀ role, role ∈ required_cols →
      ∃ c, c ∈ columns ∧ first_role c = Some role)) ∧
  resolve_columns columns =
    (if decide (unassigned columns = []) then Ok (detect_columns columns)
     else Raise (ValueError ("⚠️ Could not detect columns in CSV: " ++
                             repr_list (unassigned columns)))) ∧
  (∀ to_datetime recs e,
     resolve_columns columns = Raise e →
     load to_datetime (Some {| columns := columns; records := recs |}) =
       Raise e).
Proof.
  split; [|split].
  - rewrite <- unassigned_nil, resolve_columns_unassigned.
    destruct (decide (unassigned columns = [])) as [Hnil|Hne].
    + split; [done|]. intros _. exists (detect_columns columns).
      split; [done|]. intros role Hrole.
      destruct (detect_columns columns !! role) eqn:Hl; [by eexists|].
      apply detect_columns_None in Hl.
      assert (role ∈ unassigned columns) as Hin
        by (apply list_elem_of_filter; done).
      rewrite Hnil in Hin. by apply not_elem_of_nil in Hin.
    + split; [|done]. by intros (m & [=] & _).
  - apply resolve_columns_unassigned.
  - intros to_datetime recs e He. unfold load. cbn. by rewrite He.
Qed.

(** ** Data preparation *)

(** The sample files load to the frames used below. *)
Example load_sample_csv : load iso_date (Some sample_csv) = Ok sample_df.
Proof. by vm_compute. Qed.

Example load_unlabelled_csv :
  load iso_date (Some unlabelled_csv) = Ok unlabelled_df.
Proof. by vm_compute. Qed.

Example load_undated_csv : load iso_date (Some undated_csv) = Ok undated_df.
Proof. by vm_compute. Qed.

Example load_undated_unlabelled_csv :
  load iso_date (Some undated_unlabelled_csv) = Ok [undated_unlabelled_row].
Proof. by vm_compute. Qed.

(** A missing file and a text in a numeric column each end the load. *)
Example load_no_file :
  load iso_date None =
  Raise (FileNotFoundError
    "⚠️ CSV file 'electricity_data.csv' not found in current folder.").
Proof. reflexivity. Qed.

Example load_text_power :
  load iso_date
    (Some {| columns := header;
             records := [<["Power" := Text "high"]>
                           (record (Text "2025-01-01") (Text "A") 0 2)] |}) =
  Raise TypeError.
Proof. by vm_compute. Qed.

(** ** Aggregation *)

Local Open Scope list_scope.




Section GroupByFacts.

Context {K : Type} `{EqDecision K}.
Context (R : relation K) `{∀ x y, Decision (R x y)}.
Context (key : Row → option K) (val : Row → option Qc).

Lemma group_keys_elem (df : DataFrame) (k : K) :
  k ∈ group_keys R key df ↔ ∃ r, r ∈ df ∧ key r = Some k.
Proof.
  unfold group_keys.
  rewrite merge_sort_Permutation, elem_of_remove_dups.
  apply list_elem_of_omap.
Qed.

Lemma group_keys_NoDup (df : DataFrame) : NoDup (group_keys R key df).
Proof.
  unfold group_keys. rewrite merge_sort_Permutation.
  apply NoDup_remove_dups.
Qed.



(** The keys of the aggregated table are in ascending order. *)
Lemma groupby_sum_sorted `{!Total R} (df : DataFrame) :
  Sorted R (groupby_sum R key val df).*1.
Proof.
  unfold groupby_sum. rewrite <- list_fmap_compose.
  rewrite (list_fmap_ext _ id) by done. rewrite list_fmap_id.
  apply Sorted_merge_sort; apply _.
Qed.

End GroupByFacts.

(** ** The callback *)

Lemma update_dashboard_run (df : DataFrame) (selected_device : cell) :
  update_dashboard selected_device df =
  (let filtered_df := filter_device selected_device df in
   ({| kind := Line; title := "Daily Energy Consumption (kWh)";
       points := groupby_sum Z.le Date Energy_kWh filtered_df |},
    {| kind := Bar; title := "Total Energy by Device";
       points := groupby_sum cell_le device_key Energy_kWh df |},
    {| kind := Area; title := "Daily Cost Trend";
       points := groupby_sum Z.le Date Cost filtered_df |},
    summary_text (nansum Energy_kWh filtered_df)
      (nansum Cost filtered_df)),
   df).
Proof. reflexivity. Qed.

Lemma cell_eqb_true (a b : cell) :
  cell_eqb a b = true ↔ a = b ∧ b ≠ Empty.
Proof.
  destruct a, b; cbn; rewrite ?bool_decide_eq_true; intuition congruence.
Qed.


Lemma filter_device_rows (selected_device : cell) (df : DataFrame) :
  filter_device selected_device df =
  if decide (selected_device = Text "All") then df
  else filter (λ r, Device r = selected_device ∧ selected_device ≠ Empty) df.
Proof.
  unfold filter_device. destruct (decide _) as [->|Hne].
  - by rewrite bool_decide_eq_true_2.
  - rewrite bool_decide_eq_false_2 by done.
    apply list_filter_iff. intros r. apply cell_eqb_true.
Qed.



(** *** Rounding to two decimals *)


(** *** The summary line *)


(** *** Per-device totals *)


(** *** Rows without a date *)




(** *** The data set is only read *)

(** C9: a call of [update_dashboard] leaves the store that holds the data set
    as it found it, whatever device is selected; the filtered frame is a new
    list, and no row changes. *)
Theorem update_dashboard_read_only (df : DataFrame) (sel : cell) :
  snd (update_dashboard sel df) = df ∧
  (∀ r, r ∈ filter_device sel df → r ∈ df).
Proof.
  split; [done|]. intros r. unfold filter_device.
  destruct (bool_decide _); [done|]. rewrite list_elem_of_filter. tauto.
Qed.

(** *** A selection that matches no row *)

(** C10: for a selected value that is not "All" and is the device of no row,
    the call returns; the filtered frame and both daily series are empty, and
    the summary reports 0.00 kWh and $0.00. *)
Theorem unknown_device_empty (df : DataFrame) (sel : cell) :
  sel ≠ Text "All" →
  (∀ r, r ∈ df → Device r ≠ sel) →
  ∃ o, update_dashboard sel df = (o, df) ∧
    filter_device sel df = [] ∧
    points (fig1_of o) = [] ∧
    points (fig3_of o) = [] ∧
    summary_of o =
      "🔋 Total Energy Used: 0.00 kWh | 💰 Total Cost: $0.00"%string.
Proof.
  intros Hall Hdev.
  assert (filter_device sel df = []) as Hnil.
  { rewrite filter_device_rows, decide_False by done.
    apply filter_nil_Forall, Forall_forall. intros r Hr [Heq _].
    by apply (Hdev r). }
  eexists. split; [apply update_dashboard_run|].
  cbn zeta. rewrite Hnil. split; [done|].
  unfold fig1_of, fig3_of, summary_of. cbn [fst snd points].
  split; [done|]. split; [done|]. by vm_compute.
Qed.

Lemma unknown_device_empty_sample :
  Text "C" ≠ Text "All" ∧
  (∀ r, r ∈ sample_df → Device r ≠ Text "C") ∧
  ∃ o, update_dashboard (Text "C") sample_df = (o, sample_df) ∧
    filter_device (Text "C") sample_df = [] ∧
    points (fig1_of o) = [] ∧
    points (fig3_of o) = [] ∧
    summary_of o =
      "🔋 Total Energy Used: 0.00 kWh | 💰 Total Cost: $0.00"%string.
Proof.
  assert (∀ r, r ∈ sample_df → Device r ≠ Text "C") as Hdev.
  { intros r Hr. unfold sample_df in Hr.
    repeat (apply elem_of_cons in Hr as [->|Hr]); try discriminate.
    by apply not_elem_of_nil in Hr. }
  assert (Text "C" ≠ Text "All") as Hall by discriminate.
  split; [exact Hall|]. split; [exact Hdev|].
  exact (unknown_device_empty sample_df (Text "C") Hall Hdev).
Defined.

(** * Further properties of the script *)

(** ** The keyword tests (lines 23-31) *)

Lemma append_String (a : ascii) (s t : string) :
  (String a s ++ t)%string = String a (s ++ t)%string.
Proof. reflexivity. Qed.

Lemma prefix_append (kw s : string) :
  String.prefix kw s = true ↔ ∃ post, s = (kw ++ post)%string.
Proof.
  revert s. induction kw as [|a kw IH]; intros s.
  - split; [intros _; by exists s|]. by destruct s.
  - destruct s as [|b s]; cbn.
    + split; [done|]. by intros [post [=]].
    + destruct (Ascii.ascii_dec a b) as [->|Hab].
      * rewrite IH. split; intros [post Hpost]; exists post;
          rewrite append_String in *; congruence.
      * split; [done|]. intros [post Hpost].
        rewrite append_String in Hpost. congruence.
Qed.

(** X1: the test [kw in name] is true exactly when [kw] occurs in [name] as a
    contiguous substring. *)
Theorem contains_substring (kw s : string) :
  contains kw s = true ↔ ∃ pre post, s = (pre ++ kw ++ post)%string.
Proof.
  induction s as [|a s IH]; cbn [contains]; rewrite orb_true_iff.
  - rewrite prefix_append. split.
    + intros [[post Hpost]|[=]]. by exists ""%string, post.
    + intros (pre & post & Hs). left. destruct pre; [|done]. by exists post.
  - rewrite prefix_append, IH. split.
    + intros [[post Hpost]|(pre & post & Hs)].
      * by exists ""%string, post.
      * exists (String a pre), post. by rewrite append_String, Hs.
    + intros ([|b pre] & post & Hs); [left; by exists post|].
      right. exists pre, post. rewrite append_String in Hs. congruence.
Qed.

(** ** Column detection (lines 21-37) *)

Lemma first_role_matches (c role : string) :
  first_role c = Some role →
  ∃ kws, (role, kws) ∈ role_keywords ∧ matches kws c = true.
Proof.
  unfold first_role.
  destruct (List.find _ role_keywords) as [[role' kws]|] eqn:Hfind; [|done].
  intros [= <-]. apply List.find_some in Hfind as [Hin Hm].
  exists kws. split; [by apply list_elem_of_In|done].
Qed.

Lemma first_role_None (c : string) :
  first_role c = None ↔ ∀ rk, rk ∈ role_keywords → matches rk.2 c = false.
Proof.
  unfold first_role. split.
  - destruct (List.find _ role_keywords) eqn:Hfind; [done|]. intros _ rk Hrk.
    apply (List.find_none _ _ Hfind). by apply list_elem_of_In.
  - intros Hnone.
    destruct (List.find _ role_keywords) as [rk|] eqn:Hfind; [|done].
    apply List.find_some in Hfind as [Hin Hm].
    rewrite Hnone in Hm by (by apply list_elem_of_In). done.
Qed.

Lemma detect_columns_Some (columns : list string) (role c : string) :
  detect_columns columns !! role = Some c →
  c ∈ columns ∧ first_role c = Some role.
Proof.
  rewrite detect_columns_lookup. intros Hlast.
  assert (c ∈ filter (λ c, first_role c = Some role) columns) as Hin.
  { apply list_elem_of_lookup. rewrite last_lookup in Hlast. eauto. }
  apply list_elem_of_filter in Hin. tauto.
Qed.

(** X2: whatever the header, a column the mapping gives to a role is a column
    of the file whose lowercased name contains one of that role's keywords,
    the role is one of the four required ones, and no column is given to two
    roles (so inverting the mapping for [rename] loses nothing). *)
Theorem detect_columns_sound (columns : list string) (role c : string) :
  detect_columns columns !! role = Some c →
  c ∈ columns ∧
  role ∈ required_cols ∧
  (∃ kws, (role, kws) ∈ role_keywords ∧
     ∃ kw, kw ∈ kws ∧ contains kw (lower c) = true) ∧
  (∀ role', detect_columns columns !! role' = Some c → role' = role).
Proof.
  intros [Hin Hrole]%detect_columns_Some. split; [done|].
  destruct (first_role_matches _ _ Hrole) as (kws & Hkws & Hm).
  split; [|split].
  - unfold role_keywords in Hkws. unfold required_cols.
    repeat (apply elem_of_cons in Hkws as [[= -> _]|Hkws]; [set_solver|]).
    by apply not_elem_of_nil in Hkws.
  - exists kws. split; [done|]. unfold matches in Hm.
    apply existsb_exists in Hm as (kw & Hkw & Hc).
    exists kw. split; [by apply list_elem_of_In|done].
  - intros role' [_ Hrole']%detect_columns_Some. congruence.
Qed.

Lemma detect_columns_sound_sample :
  detect_columns ["Day"; "Appliance"; "Watts"; "Usage (h)"] !! "Power_Watts"
    = Some "Watts" ∧
  "Watts" ∈ ["Day"; "Appliance"; "Watts"; "Usage (h)"].
Proof.
  assert (detect_columns ["Day"; "Appliance"; "Watts"; "Usage (h)"]
            !! "Power_Watts" = Some "Watts") as Hl by (by vm_compute).
  split; [exact Hl|].
  exact (proj1 (detect_columns_sound _ _ _ Hl)).
Defined.

Lemma unassigned_roles (columns columns' : list string) :
  first_role <$> columns ≡ₚ first_role <$> columns' →
  unassigned columns = unassigned columns'.
Proof.
  intros Hperm. unfold unassigned. apply list_filter_iff. intros role.
  assert (∀ l : list string,
    Forall (λ c, first_role c ≠ Some role) l ↔
    Forall (λ o, o ≠ Some role) (first_role <$> l)) as Hf
    by (intros l; by rewrite Forall_fmap).
  by rewrite !Hf, Hperm.
Qed.

Lemma resolve_columns_roles (columns columns' : list string) :
  first_role <$> columns ≡ₚ first_role <$> columns' →
  resolve_columns columns' =
  match resolve_columns columns with
  | Ok _ => Ok (detect_columns columns')
  | Raise e => Raise e
  end.
Proof.
  intros Hperm. rewrite !resolve_columns_unassigned.
  rewrite (unassigned_roles _ _ Hperm). by destruct (decide _).
Qed.

(** X3: the letter case of the header is irrelevant to detection.  Two
    headers that agree after lowercasing resolve alike: both raise the same
    [ValueError], or both succeed and give each role columns in the same
    position (equal after lowercasing). *)
Theorem resolve_columns_case_insensitive (columns columns' : list string) :
  lower <$> columns = lower <$> columns' →
  resolve_columns columns' =
    match resolve_columns columns with
    | Ok _ => Ok (detect_columns columns')
    | Raise e => Raise e
    end ∧
  (∀ role,
     lower <$> (detect_columns columns !! role) =
     lower <$> (detect_columns columns' !! role)).
Proof.
  intros Hlower.
  assert (Forall2 (λ c c', lower c = lower c') columns columns') as Hall.
  { revert columns' Hlower.
    induction columns as [|c columns IH]; intros [|c' columns'] Heq;
      try discriminate; [constructor|].
    injection Heq as Hc Hcs. constructor; [done|by apply IH]. }
  clear Hlower.
  assert (∀ c c', lower c = lower c' → first_role c = first_role c') as Hrole.
  { intros c c' Hc. unfold first_role, matches. by rewrite Hc. }
  split.
  - apply resolve_columns_roles.
    assert (first_role <$> columns = first_role <$> columns') as ->; [|done].
    induction Hall as [|c c' cs cs' Hc _ IH]; [done|].
    by rewrite !fmap_cons, IH, (Hrole c c' Hc).
  - intros role. rewrite !detect_columns_lookup.
    induction Hall as [|c c' cs cs' Hc _ IH]; [done|].
    rewrite !filter_cons, <- (Hrole c c' Hc).
    destruct (decide (first_role c = Some role)); [|done].
    rewrite !last_cons.
    destruct (last (filter _ cs)), (last (filter _ cs')); cbn in *;
      congruence.
Qed.

Lemma resolve_columns_case_insensitive_sample :
  lower <$> ["DATE"; "Device Name"; "POWER (W)"; "Hours"] =
  lower <$> ["date"; "device name"; "power (w)"; "hours"] ∧
  resolve_columns ["date"; "device name"; "power (w)"; "hours"] =
    Ok (detect_columns ["date"; "device name"; "power (w)"; "hours"]).
Proof.
  assert (lower <$> ["DATE"; "Device Name"; "POWER (W)"; "Hours"] =
          lower <$> ["date"; "device name"; "power (w)"; "hours"]) as Hl
    by reflexivity.
  split; [exact Hl|].
  exact (proj1 (resolve_columns_case_insensitive _ _ Hl)).
Defined.

(** X4: the order of the columns decides only which of several candidates a
    role gets, never whether detection succeeds: a reordered header raises
    the same [ValueError] or succeeds as well. *)
Theorem resolve_columns_order (columns columns' : list string) :
  columns ≡ₚ columns' →
  resolve_columns columns' =
  match resolve_columns columns with
  | Ok _ => Ok (detect_columns columns')
  | Raise e => Raise e
  end.
Proof. intros Hperm. apply resolve_columns_roles. by rewrite Hperm. Qed.

Lemma resolve_columns_order_sample :
  ["Date"; "Device"; "Power"] ≡ₚ ["Power"; "Date"; "Device"] ∧
  resolve_columns ["Power"; "Date"; "Device"] =
    Raise (ValueError "⚠️ Could not detect columns in CSV: ['Hours_Used']").
Proof.
  assert (["Date"; "Device"; "Power"] ≡ₚ ["Power"; "Date"; "Device"]) as Hp.
  { symmetry. apply (Permutation_cons_app ["Date"; "Device"] [] "Power").
    reflexivity. }
  split; [exact Hp|].
  exact (resolve_columns_order _ _ Hp).
Defined.

(** X5: a column whose name contains none of the eight keywords is ignored:
    with or without it the mapping is the same. *)
Theorem detect_columns_ignores_unmatched (cols1 cols2 : list string)
    (c : string) :
  (∀ rk, rk ∈ role_keywords → matches rk.2 c = false) →
  detect_columns (cols1 ++ c :: cols2) = detect_columns (cols1 ++ cols2).
Proof.
  intros Hc%first_role_None. apply map_eq. intros role.
  rewrite !detect_columns_lookup, !filter_app, filter_cons.
  rewrite decide_False; [done|congruence].
Qed.

Lemma detect_columns_ignores_unmatched_sample :
  (∀ rk, rk ∈ role_keywords → matches rk.2 "Room" = false) ∧
  detect_columns (["Date"; "Device"] ++ "Room" :: ["Power"; "Hours"]) =
  detect_columns (["Date"; "Device"] ++ ["Power"; "Hours"]).
Proof.
  assert (∀ rk, rk ∈ role_keywords → matches rk.2 "Room" = false) as Hc.
  { intros rk Hrk. unfold role_keywords in Hrk.
    repeat (apply elem_of_cons in Hrk as [->|Hrk]); try reflexivity.
    by apply not_elem_of_nil in Hrk. }
  split; [exact Hc|].
  exact (detect_columns_ignores_unmatched _ _ _ Hc).
Defined.

(** X6: when no role has two candidate columns, the mapping does not depend
    on the order of the columns at all. *)
Theorem detect_columns_unambiguous (columns columns' : list string) :
  columns ≡ₚ columns' →
  (∀ role,
     length (filter (λ c, first_role c = Some role) columns) ≤ 1)%nat →
  detect_columns columns' = detect_columns columns.
Proof.
  intros Hperm Hone. apply map_eq. intros role.
  rewrite !detect_columns_lookup. specialize (Hone role).
  assert (filter (λ c, first_role c = Some role) columns ≡ₚ
          filter (λ c, first_role c = Some role) columns') as Hf
    by (by rewrite Hperm).
  destruct (filter _ columns) as [|x [|y l]]; cbn in Hone; [| |lia].
  - by apply Permutation_nil_l in Hf as ->.
  - by apply Permutation_singleton_l in Hf as ->.
Qed.

Lemma detect_columns_unambiguous_sample :
  ["Date"; "Device"; "Power"; "Hours"] ≡ₚ
    ["Hours"; "Date"; "Device"; "Power"] ∧
  detect_columns ["Hours"; "Date"; "Device"; "Power"] =
  detect_columns ["Date"; "Device"; "Power"; "Hours"].
Proof.
  assert (["Date"; "Device"; "Power"; "Hours"] ≡ₚ
            ["Hours"; "Date"; "Device"; "Power"]) as Hp.
  { symmetry.
    apply (Permutation_cons_app ["Date"; "Device"; "Power"] [] "Hours").
    reflexivity. }
  split; [exact Hp|].
  apply (detect_columns_unambiguous _ _ Hp). intros role.
  assert (first_role "Date" = Some "Date") as E1 by (by vm_compute).
  assert (first_role "Device" = Some "Device") as E2 by (by vm_compute).
  assert (first_role "Power" = Some "Power_Watts") as E3 by (by vm_compute).
  assert (first_role "Hours" = Some "Hours_Used") as E4 by (by vm_compute).
  rewrite !filter_cons, filter_nil, E1, E2, E3, E4.
  repeat case_decide; simplify_eq; cbn; lia.
Defined.

Lemma resolve_columns_Ok (columns : list string)
    (col_map : gmap string string) :
  resolve_columns columns = Ok col_map →
  col_map = detect_columns columns ∧ unassigned columns = [].
Proof.
  rewrite resolve_columns_unassigned.
  destruct (decide (unassigned columns = [])); [|done]. by intros [= <-].
Qed.

(** X20: columns can only help detection: when a header resolves, every
    header that contains its columns (in any order, with any others) resolves
    too. *)
Theorem resolve_columns_more_columns (columns columns' : list string)
    (col_map : gmap string string) :
  resolve_columns columns = Ok col_map →
  (∀ c, c ∈ columns → c ∈ columns') →
  resolve_columns columns' = Ok (detect_columns columns').
Proof.
  intros [_ Hnil]%resolve_columns_Ok Hsub.
  rewrite resolve_columns_unassigned, decide_True; [done|].
  apply unassigned_nil. intros role Hrole.
  destruct (proj1 (unassigned_nil columns) Hnil role Hrole) as (c & Hc & Hr).
  exists c. split; [by apply Hsub|done].
Qed.

Lemma resolve_columns_more_columns_sample :
  resolve_columns ["Date"; "Device"; "Power"; "Hours"] =
    Ok (detect_columns ["Date"; "Device"; "Power"; "Hours"]) ∧
  resolve_columns ["Room"; "Hours"; "Power"; "Device"; "Date"] =
    Ok (detect_columns ["Room"; "Hours"; "Power"; "Device"; "Date"]).
Proof.
  assert (resolve_columns ["Date"; "Device"; "Power"; "Hours"] =
          Ok (detect_columns ["Date"; "Device"; "Power"; "Hours"])) as Hok
    by (by vm_compute).
  split; [exact Hok|].
  apply (resolve_columns_more_columns _ _ _ Hok). intros c Hc.
  repeat (apply elem_of_cons in Hc as [->|Hc]); [set_solver..|].
  by apply not_elem_of_nil in Hc.
Defined.

Lemma groupby_sum_keys {K} `{EqDecision K} (R : relation K)
    `{∀ x y, Decision (R x y)} (key : Row → option K)
    (val : Row → option Qc) (df : DataFrame) :
  (groupby_sum R key val df).*1 = group_keys R key df.
Proof.
  unfold groupby_sum. rewrite <- list_fmap_compose.
  rewrite (list_fmap_ext _ id) by done. apply list_fmap_id.
Qed.

Lemma Sorted_le_NoDup_lt (l : list Z) :
  Sorted Z.le l → NoDup l → StronglySorted Z.lt l.
Proof.
  intros Hs%Sorted_StronglySorted; [|apply _].
  induction Hs as [|x l _ IH Hx]; intros Hnd; [constructor|].
  apply NoDup_cons in Hnd as [Hxl Hnd]. constructor; [by apply IH|].
  rewrite Forall_forall in Hx |- *. intros y Hy.
  specialize (Hx y Hy). assert (x ≠ y) by (by intros ->). lia.
Qed.

(** X13: both daily series list the same dates: each date of a selected row
    once, in strictly ascending order. *)
Theorem daily_series_ascending (df : DataFrame) (sel : cell) :
  StronglySorted Z.lt (points (fig1_of (outputs df sel))).*1 ∧
  (points (fig3_of (outputs df sel))).*1 =
    (points (fig1_of (outputs df sel))).*1 ∧
  (∀ d, d ∈ (points (fig1_of (outputs df sel))).*1 ↔
        ∃ r, r ∈ filter_device sel df ∧ Date r = Some d).
Proof.
  unfold outputs, fig1_of, fig3_of. rewrite update_dashboard_run.
  cbn [fst snd points]. rewrite !groupby_sum_keys.
  split; [|split; [done|]].
  - apply Sorted_le_NoDup_lt.
    + unfold group_keys. apply Sorted_merge_sort; apply _.
    + apply group_keys_NoDup.
  - intros d. apply group_keys_elem.
Qed.



(** ** The device selector (lines 60-66) *)

Lemma unique_from_elem (seen l : list cell) (x : cell) :
  x ∈ unique_from seen l ↔ x ∈ l ∧ x ∉ seen.
Proof.
  revert seen. induction l as [|y l IH]; intros seen; cbn.
  - rewrite elem_of_nil. tauto.
  - destruct (decide (y ∈ seen)) as [Hy|Hy].
    + rewrite IH, elem_of_cons. split; [tauto|].
      intros [[->|Hx] Hs]; [done|tauto].
    + rewrite !elem_of_cons, IH, elem_of_cons.
      destruct (decide (x = y)) as [->|Hne]; tauto.
Qed.

Lemma unique_from_NoDup (seen l : list cell) : NoDup (unique_from seen l).
Proof.
  revert seen. induction l as [|y l IH]; intros seen; cbn; [constructor|].
  destruct (decide (y ∈ seen)); [apply IH|].
  constructor; [|apply IH]. rewrite unique_from_elem, elem_of_cons. tauto.
Qed.

Lemma unique_elem (l : list cell) (x : cell) : x ∈ unique l ↔ x ∈ l.
Proof.
  unfold unique. rewrite unique_from_elem, elem_of_nil. tauto.
Qed.

Global Instance cell_le_total : Total cell_le.
Proof.
  intros [x|s|] [y|t|]; unfold cell_le; cbn; auto.
  - rewrite !Qle_bool_iff. destruct (Qlt_le_dec x y) as [Hlt|Hle]; [|tauto].
    left. by apply Qlt_le_weak.
  - apply String.leb_total.
Qed.

Section LayoutFacts.

Variable sort_with_nan : list cell → list cell.

Lemma py_sorted_one_kind (df : DataFrame) :
  one_kind df →
  py_sorted sort_with_nan (unique (Device <$> df)) =
  Ok (merge_sort cell_le (unique (Device <$> df))).
Proof.
  intros Hkind. unfold py_sorted.
  assert (∀ c, c ∈ unique (Device <$> df) → ∃ r, r ∈ df ∧ Device r = c)
    as Hc.
  { intros c [r [-> Hr]]%unique_elem%list_elem_of_fmap. eauto. }
  assert (existsb is_nan (unique (Device <$> df)) = false) as ->.
  { apply not_true_is_false. intros (c & Hin & Hnan)%existsb_exists.
    apply list_elem_of_In, Hc in Hin as (r & Hr & <-).
    destruct Hkind as [Hk|Hk]; destruct (Hk r Hr) as [? Heq];
      by rewrite Heq in Hnan. }
  destruct Hkind as [Hk|Hk].
  - assert (forallb is_text (unique (Device <$> df)) = true) as ->;
      [|by rewrite andb_false_r].
    apply forallb_forall. intros c (r & Hr & <-)%list_elem_of_In%Hc.
    destruct (Hk r Hr) as [? ->]. done.
  - assert (existsb is_text (unique (Device <$> df)) = false) as ->; [|done].
    apply not_true_is_false. intros (c & Hin & Ht)%existsb_exists.
    apply list_elem_of_In, Hc in Hin as (r & Hr & <-).
    destruct (Hk r Hr) as [? Heq]. by rewrite Heq in Ht.
Qed.

Lemma device_options_one_kind (df : DataFrame) :
  one_kind df →
  device_options sort_with_nan df =
  Ok ({| label := Text "All Devices"; value := Text "All" |} ::
      ((λ d, {| label := d; value := d |})
         <$> merge_sort cell_le (unique (Device <$> df)))).
Proof.
  intros Hkind. unfold device_options. by rewrite py_sorted_one_kind.
Qed.

Lemma sorted_devices_elem (df : DataFrame) (d : cell) :
  d ∈ merge_sort cell_le (unique (Device <$> df)) ↔
  ∃ r, r ∈ df ∧ Device r = d.
Proof.
  rewrite merge_sort_Permutation, unique_elem, list_elem_of_fmap.
  split; intros (r & ? & ?); eauto.
Qed.

(** X16: a device column that holds a text and an empty cell ends start-up:
    [sorted] cannot compare a text with NaN, so building the selector raises
    [TypeError] although the data set itself loaded. *)
Theorem device_options_text_and_empty (df : DataFrame) (s : string) :
  Text s ∈ Device <$> df →
  Empty ∈ Device <$> df →
  device_options sort_with_nan df = Raise TypeError ∧
  (∀ to_datetime file,
     load to_datetime file = Ok df →
     startup sort_with_nan to_datetime file = Raise TypeError).
Proof.
  intros Ht He.
  assert (device_options sort_with_nan df = Raise TypeError) as Hopts.
  { unfold device_options, py_sorted.
    assert (existsb is_text (unique (Device <$> df)) = true) as ->.
    { apply existsb_exists. exists (Text s). split; [|done].
      by apply list_elem_of_In, unique_elem. }
    assert (forallb is_text (unique (Device <$> df)) = false) as ->; [|done].
    apply not_true_is_false. intros Hall.
    rewrite forallb_forall in Hall.
    by specialize (Hall Empty ltac:(by apply list_elem_of_In, unique_elem)). }
  split; [done|]. intros td file Hload. unfold startup.
  rewrite Hload. cbn. by rewrite Hopts.
Qed.

(** X17: when the devices are all texts, or all numbers, the selector offers
    "All Devices" (value "All", the initial selection) and then one entry per
    device of the data set: each device once, label equal to value, in
    ascending order. *)
Theorem device_options_sorted_devices (df : DataFrame) :
  one_kind df →
  ∃ devices,
    device_options sort_with_nan df =
      Ok ({| label := Text "All Devices"; value := initial_value |} ::
          ((λ d, {| label := d; value := d |}) <$> devices)) ∧
    NoDup devices ∧
    Sorted cell_le devices ∧
    (∀ d, d ∈ devices ↔ ∃ r, r ∈ df ∧ Device r = d).
Proof.
  intros Hkind. exists (merge_sort cell_le (unique (Device <$> df))).
  split; [by apply device_options_one_kind|]. split; [|split].
  - rewrite merge_sort_Permutation. apply unique_from_NoDup.
  - apply Sorted_merge_sort; apply _.
  - apply sorted_devices_elem.
Qed.

(** X18: the option values are pairwise distinct unless a device is itself
    labelled "All": then the value "All" is offered twice. *)
Theorem device_options_values_distinct (df : DataFrame)
    (opts : list DropdownOption) :
  one_kind df →
  device_options sort_with_nan df = Ok opts →
  (NoDup (value <$> opts) ↔ ∀ r, r ∈ df → Device r ≠ Text "All").
Proof.
  intros Hkind. rewrite device_options_one_kind by done. intros [= <-].
  rewrite fmap_cons, <- list_fmap_compose. cbn [value].
  rewrite (list_fmap_ext _ id) by done. rewrite list_fmap_id.
  rewrite NoDup_cons, sorted_devices_elem. split.
  - intros [Hno _] r Hr Hall. apply Hno. eauto.
  - intros Hno. split.
    + intros (r & Hr & Hall). by apply (Hno r).
    + rewrite merge_sort_Permutation. apply unique_from_NoDup.
Qed.

(** X19: every device entry of the selector selects something: choosing an
    option whose value is not "All" filters the data set to the rows of
    exactly that device, and there is at least one. *)
Theorem device_option_selects_its_rows (df : DataFrame)
    (opts : list DropdownOption) (o : DropdownOption) :
  one_kind df →
  device_options sort_with_nan df = Ok opts →
  o ∈ opts →
  value o ≠ Text "All" →
  filter_device (value o) df ≠ [] ∧
  (∀ r, r ∈ filter_device (value o) df ↔ r ∈ df ∧ Device r = value o).
Proof.
  intros Hkind. rewrite device_options_one_kind by done. intros [= <-].
  intros [->|Ho]%elem_of_cons Hall; [done|].
  apply list_elem_of_fmap in Ho as (d & -> & Hd). cbn [value] in *.
  apply sorted_devices_elem in Hd as (r & Hr & <-).
  assert (Device r ≠ Empty) as Hne.
  { destruct Hkind as [Hk|Hk]; destruct (Hk r Hr) as [? ->]; done. }
  assert (∀ r', r' ∈ filter_device (Device r) df ↔
                r' ∈ df ∧ Device r' = Device r) as Hiff.
  { intros r'. rewrite filter_device_rows, decide_False by done.
    rewrite list_elem_of_filter. tauto. }
  split; [|done]. intros Hnil.
  assert (r ∈ filter_device (Device r) df) as Hin by (by apply Hiff).
  rewrite Hnil in Hin. by apply not_elem_of_nil in Hin.
Qed.

End LayoutFacts.

Lemma sample_df_one_kind : one_kind sample_df.
Proof.
  left. intros r Hr. unfold sample_df in Hr.
  repeat (apply elem_of_cons in Hr as [->|Hr]); try (by eexists).
  by apply not_elem_of_nil in Hr.
Defined.

Lemma sample_df_options :
  device_options (λ l, l) sample_df =
  Ok [ {| label := Text "All Devices"; value := Text "All" |};
       {| label := Text "A"; value := Text "A" |};
       {| label := Text "B"; value := Text "B" |} ].
Proof. by vm_compute. Defined.

Lemma device_options_text_and_empty_sample :
  device_options (λ l, l)
    [row (Some 20250101%Z) (Text "A") 1000 2;
     row (Some 20250102%Z) Empty 1000 3] = Raise TypeError.
Proof.
  refine (proj1 (device_options_text_and_empty (λ l, l) _ "A" _ _)).
  - left.
  - right; left.
Defined.

Lemma device_options_sorted_devices_sample :
  ∃ devices,
    device_options (λ l, l) sample_df =
      Ok ({| label := Text "All Devices"; value := initial_value |} ::
          ((λ d, {| label := d; value := d |}) <$> devices)) ∧
    NoDup devices ∧
    Sorted cell_le devices ∧
    (∀ d, d ∈ devices ↔ ∃ r, r ∈ sample_df ∧ Device r = d).
Proof.
  exact (device_options_sorted_devices (λ l, l) sample_df sample_df_one_kind).
Defined.

Lemma device_options_values_distinct_sample :
  NoDup [Text "All"; Text "A"; Text "B"] ↔
  ∀ r, r ∈ sample_df → Device r ≠ Text "All".
Proof.
  exact (device_options_values_distinct (λ l, l) sample_df _
           sample_df_one_kind sample_df_options).
Defined.

Lemma device_option_selects_its_rows_sample :
  filter_device (Text "B") sample_df ≠ [] ∧
  (∀ r, r ∈ filter_device (Text "B") sample_df ↔
        r ∈ sample_df ∧ Device r = Text "B").
Proof.
  refine (device_option_selects_its_rows (λ l, l) sample_df _
            {| label := Text "B"; value := Text "B" |}
            sample_df_one_kind sample_df_options _ _).
  - right; right; left.
  - discriminate.
Defined.

(** ** The per-device chart (lines 95-98) *)











(** * Properties of the machine model *)

Import Machine.
Local Open Scope nat_scope.

(** ** Frames *)

Lemma bind_Ok {A B} (m : result A) (k : A → result B) (y : B) :
  m ≫= k = Ok y ↔ ∃ x, m = Ok x ∧ k x = Ok y.
Proof.
  destruct m as [a|e]; cbn.
  - split; [eauto | by intros (x & [= ->] & ?)].
  - split; [done | by intros (x & ? & _)].
Qed.

Lemma series_Ok (cols : list column) (c : column) :
  series cols = Ok c ↔ cols = [c].
Proof.
  destruct cols as [|x [|y cols]]; cbn; split; try done.
  - by intros [= ->].
  - by intros [= ->].
Qed.


Lemma getitem_cons (df : frame) (l k : string) (x : column) :
  getitem ((l, x) :: df) k =
  if decide (l = k) then x :: getitem df k else getitem df k.
Proof.
  unfold getitem. rewrite filter_cons. cbn. by destruct (decide (l = k)).
Qed.

Lemma getitem_nil (df : frame) (k : string) :
  k ∉ df.*1 → getitem df k = [].
Proof.
  induction df as [|[l x] df IH]; [done|].
  cbn [fmap list_fmap]. cbn [fst]. intros [? ?]%not_elem_of_cons.
  rewrite getitem_cons, decide_False by congruence. by apply IH.
Qed.

Lemma getitem_app (df1 df2 : frame) (k : string) :
  getitem (df1 ++ df2) k = getitem df1 k ++ getitem df2 k.
Proof. unfold getitem. by rewrite filter_app, fmap_app. Qed.

Lemma getitem_setitem_ne (df : frame) (k k' : string) (c : column) :
  k ≠ k' → getitem (setitem df k c) k' = getitem df k'.
Proof.
  intros Hne. unfold setitem. case_bool_decide as Hk.
  - clear Hk. induction df as [|[l x] df IH]; [done|].
    cbn [fmap list_fmap]. cbn [fst]. case_bool_decide as Hl.
    + subst l. rewrite !getitem_cons, !decide_False by done. apply IH.
    + rewrite !getitem_cons. destruct (decide (l = k')); by rewrite IH.
  - rewrite getitem_app, getitem_cons, decide_False by done.
    apply app_nil_r.
Qed.

Lemma getitem_setitem_eq (df : frame) (k : string) (c : column) :
  getitem (setitem df k c) k =
  if bool_decide (k ∈ df.*1) then (λ _, c) <$> getitem df k else [c].
Proof.
  unfold setitem. case_bool_decide as Hk.
  - clear Hk. induction df as [|[l x] df IH]; [done|].
    cbn [fmap list_fmap]. cbn [fst]. case_bool_decide as Hl.
    + subst l. rewrite !getitem_cons, !decide_True by done.
      cbn. by rewrite IH.
    + rewrite !getitem_cons, !decide_False by done. apply IH.
  - rewrite getitem_app, getitem_nil, getitem_cons, decide_True by done.
    done.
Qed.

Lemma getitem_setitem_elem (df : frame) (k : string) (c x : column) :
  x ∈ getitem (setitem df k c) k → x = c.
Proof.
  rewrite getitem_setitem_eq. case_bool_decide.
  - by intros (? & -> & _)%list_elem_of_fmap.
  - by intros ->%list_elem_of_singleton.
Qed.

Lemma getitem_setitem_single (df : frame) (k : string) (c : column) :
  List.length (getitem df k) ≤ 1 → getitem (setitem df k c) k = [c].
Proof.
  intros Hlen. rewrite getitem_setitem_eq. case_bool_decide as Hk; [|done].
  destruct (getitem df k) as [|x [|]] eqn:Hg; cbn in Hlen; [|done|lia].
  exfalso. apply list_elem_of_fmap in Hk as ([l x] & -> & Hin).
  assert (x ∈ getitem df l) as Hx.
  { unfold getitem. apply list_elem_of_fmap. exists (l, x). split; [done|].
    by apply list_elem_of_filter. }
  cbn in Hg. rewrite Hg in Hx. by apply not_elem_of_nil in Hx.
Qed.




Lemma length_getitem_NoDup (df : frame) (k : string) :
  NoDup df.*1 → List.length (getitem df k) ≤ 1.
Proof.
  induction df as [|[l x] df IH]; [cbn; lia|].
  cbn [fmap list_fmap]. cbn [fst]. intros [Hl Hnd]%NoDup_cons.
  rewrite getitem_cons. destruct (decide (l = k)) as [->|]; [|by apply IH].
  rewrite getitem_nil by done. cbn. lia.
Qed.

Lemma rename_label_other (col_map : gmap string string) (l k : string) :
  k ∉ required_cols → rename_label col_map l = k → l = k.
Proof.
  intros Hk. unfold rename_label.
  destruct (List.find _ required_cols) as [k'|] eqn:Hf; [|done].
  intros ->. apply find_some in Hf as [Hin _].
  by apply list_elem_of_In in Hin.
Qed.

Lemma length_getitem_rename (col_map : gmap string string) (df : frame)
    (k : string) :
  k ∉ required_cols →
  List.length (getitem (rename col_map df) k) ≤ List.length (getitem df k).
Proof.
  intros Hk. induction df as [|[l x] df IH]; [done|].
  unfold rename in *. cbn [fmap list_fmap]. cbn [fst snd].
  rewrite !getitem_cons.
  destruct (decide (rename_label col_map l = k)) as [Hr|Hr].
  - apply rename_label_other in Hr as ->; [|done].
    rewrite decide_True by done. cbn. lia.
  - destruct (decide (l = k)); cbn; lia.
Qed.


(** ** Arithmetic on columns (lines 45-46) *)












(** What a successful run of lines 45-46 has computed. *)
Lemma derive_Ok (df df' : frame) :
  derive df = Ok df' →
  ∃ power hours product energy,
    getitem df "Power_Watts" = [power] ∧
    getitem df "Hours_Used" = [hours] ∧
    col_mul power hours = Ok product ∧
    col_div product 1000%float = Ok (Float64 energy) ∧
    df' = setitem (setitem df "Energy_kWh" (Float64 energy)) "Cost"
            (Float64 ((λ e, PrimFloat.mul e Machine.COST_PER_KWH)
                        <$> energy)).
Proof.
  unfold derive.
  intros (power & Hp%series_Ok & H)%bind_Ok.
  apply bind_Ok in H as (hours & Hh%series_Ok & H).
  apply bind_Ok in H as (product & Hmul & H).
  apply bind_Ok in H as (energy & Hdiv & H). cbn zeta in H.
  apply bind_Ok in H as (energy' & He%series_Ok & H).
  apply bind_Ok in H as (cost & Hcost & [= <-]).
  assert (energy' = energy) as ->.
  { eapply getitem_setitem_elem. rewrite He. by left. }
  assert (∃ x, energy = Float64 x) as [x ->].
  { unfold col_div in Hdiv. destruct (as_floats product); [|done].
    injection Hdiv as <-. by eexists. }
  cbn in Hcost. injection Hcost as <-.
  by exists power, hours, product, x.
Qed.

(** ** Loading (lines 13-46) *)

Lemma load_Ok (parse : column → scalar → parsed) (raw df : frame) :
  Machine.load parse (Csv raw) = Ok df →
  ∃ col_map c,
    resolve_columns raw.*1 = Ok col_map ∧
    getitem (rename col_map raw) "Date" = [c] ∧
    derive (setitem (rename col_map raw) "Date"
              (Datetime ((λ v, stamp (parse c v)) <$> scalars c))) = Ok df.
Proof.
  unfold Machine.load. cbn [Machine.read_csv mbind result_bind].
  intros (col_map & Hres & H)%bind_Ok.
  apply bind_Ok in H as (df1 & Hdates & Hderive).
  unfold parse_dates in Hdates.
  apply bind_Ok in Hdates as (dates & Hto & [= <-]).
  destruct (getitem (rename col_map raw) "Date") as [|c [|c' cols]] eqn:Hg;
    try done.
  cbn in Hto. injection Hto as <-.
  exists col_map, c. by rewrite (list_fmap_compose (parse c) stamp).
Qed.

Lemma derived_not_required (k : string) :
  k = "Energy_kWh" ∨ k = "Cost" → k ∉ required_cols.
Proof.
  intros [-> | ->] Hin; unfold required_cols in Hin;
    repeat (apply elem_of_cons in Hin as [?|Hin]; [done|]);
    by apply not_elem_of_nil in Hin.
Qed.

(** The columns a loaded frame has under the four labels of lines 45-46. *)
Lemma load_columns (parse : column → scalar → parsed) (raw df : frame) :
  NoDup raw.*1 →
  Machine.load parse (Csv raw) = Ok df →
  ∃ power hours product energy,
    getitem df "Power_Watts" = [power] ∧
    getitem df "Hours_Used" = [hours] ∧
    col_mul power hours = Ok product ∧
    col_div product 1000%float = Ok (Float64 energy) ∧
    getitem df "Energy_kWh" = [Float64 energy] ∧
    getitem df "Cost" =
      [Float64 ((λ e, PrimFloat.mul e Machine.COST_PER_KWH) <$> energy)].
Proof.
  intros Hnd (col_map & c & Hres & Hdate & Hder)%load_Ok.
  set (df1 := setitem _ "Date" _) in Hder.
  apply derive_Ok in Hder
    as (power & hours & product & energy & Hp & Hh & Hmul & Hdiv & ->).
  exists power, hours, product, energy.
  split; [by rewrite !getitem_setitem_ne|].
  split; [by rewrite !getitem_setitem_ne|].
  split; [done|]. split; [done|]. split.
  - rewrite getitem_setitem_ne by done. apply getitem_setitem_single.
    unfold df1. rewrite getitem_setitem_ne by done.
    etrans; [by apply length_getitem_rename, derived_not_required; eauto|].
    by apply length_getitem_NoDup.
  - apply getitem_setitem_single. rewrite getitem_setitem_ne by done.
    unfold df1. rewrite getitem_setitem_ne by done.
    etrans; [by apply length_getitem_rename, derived_not_required; eauto|].
    by apply length_getitem_NoDup.
Qed.

(** The sample files load to the frames given with them. *)
Example load_machine_sample :
  Machine.load iso_parse (Csv Machine.sample_csv) = Ok sample_frame.
Proof. vm_compute. reflexivity. Qed.

Example load_machine_small :
  Machine.load iso_parse (Csv small_csv) = Ok small_frame.
Proof. vm_compute. reflexivity. Qed.

(** A file with two device columns loads: lines 13-46 never read them. *)
Example load_two_devices :
  ∃ df, Machine.load iso_parse (Csv two_devices_csv) = Ok df ∧
        List.length (getitem df "Device") = 2.
Proof. eexists. split; [vm_compute; reflexivity|]. reflexivity. Qed.

(** [COST_PER_KWH] is the binary64 nearest to 0.15, a little below it. *)
Example cost_per_kwh_binary64 :
  ∃ q, exact_value Machine.COST_PER_KWH = Some q ∧
       (q == 5404319552844595 # 36028797018963968)%Q ∧ (q < 15 # 100)%Q.
Proof. eexists. split; [vm_compute; reflexivity|]. by split. Qed.




(** The sample, row by row: 1000 W for 3 h is 3 kWh, and costs
    0.44999999999999996. *)
Example sample_second_row :
  times (IntV 1000) (IntV 3) ≫= per_thousand = Some 3%float ∧
  PrimFloat.mul 3 Machine.COST_PER_KWH = 0x1.cccccccccccccp-2%float ∧
  PrimFloat.ltb (PrimFloat.mul 3 Machine.COST_PER_KWH)
    (PrimFloat.div 45 100) = true.
Proof. by vm_compute. Qed.

(** X10: when both columns are [int64], the energy is the wrapped product
    turned into a binary64 and divided by 1000; the wrapped product is the
    value in the [int64] range that differs from the product by a multiple of
    2^64, so it is the product itself exactly when that fits. *)
Theorem energy_int64_wraps (parse : column → scalar → parsed)
    (raw df : frame) (u w : list Z) :
  NoDup raw.*1 →
  Machine.load parse (Csv raw) = Ok df →
  getitem df "Power_Watts" = [Int64 u] →
  getitem df "Hours_Used" = [Int64 w] →
  getitem df "Energy_kWh" =
    [Float64 ((λ z, PrimFloat.div (of_int64 z) 1000)
                <$> zip_with (λ p h, wrap64 (p * h)) u w)] ∧
  ∀ z, (- 2 ^ 63 ≤ wrap64 z < 2 ^ 63)%Z ∧
       ((wrap64 z - z) mod 2 ^ 64 = 0)%Z ∧
       ((- 2 ^ 63 ≤ z < 2 ^ 63)%Z ↔ wrap64 z = z).
Proof.
  intros Hnd Hload Hu Hw.
  destruct (load_columns _ _ _ Hnd Hload)
    as (power & hours & product & energy & Hp & Hh & Hmul & Hdiv & He & _).
  rewrite Hu in Hp. rewrite Hw in Hh.
  injection Hp as <-. injection Hh as <-.
  cbn in Hmul. injection Hmul as <-. cbn in Hdiv. injection Hdiv as <-.
  split; [by rewrite He, <- list_fmap_compose|].
  intros z. unfold wrap64.
  pose proof (Z.mod_pos_bound (z + 2 ^ 63) (2 ^ 64) ltac:(lia)) as Hb.
  pose proof (Z.div_mod (z + 2 ^ 63) (2 ^ 64) ltac:(lia)) as Hdm.
  split; [lia|]. split.
  - replace ((z + 2 ^ 63) mod 2 ^ 64 - 2 ^ 63 - z)%Z
      with (- ((z + 2 ^ 63) / 2 ^ 64) * 2 ^ 64)%Z by lia.
    apply Z.mod_mul. lia.
  - split; [|lia]. intros Hz.
    rewrite Z.mod_small by lia. lia.
Qed.

Lemma energy_int64_wraps_sample :
  getitem huge_frame "Energy_kWh" =
    [Float64 [PrimFloat.div (of_int64 (-2446744073709551616)) 1000]].
Proof.
  refine (proj1 (energy_int64_wraps iso_parse huge_csv huge_frame
                   [4000000000%Z] [4000000000%Z] _ _ _ _)).
  - apply (bool_decide_unpack _). vm_compute. exact I.
  - vm_compute. reflexivity.
  - reflexivity.
  - reflexivity.
Defined.

(** ** The summary (lines 88 and 104-107) *)







(** 15 W and 5 W for one hour: each device prints 0.01, both together 0.02;
    no cost reaches a cent. *)
Example summary_small :
  Machine.summary left_sum small_frame (StrV "lamp") =
    Ok "🔋 Total Energy Used: 0.01 kWh | 💰 Total Cost: $0.00" ∧
  Machine.summary left_sum small_frame (StrV "clock") =
    Ok "🔋 Total Energy Used: 0.01 kWh | 💰 Total Cost: $0.00" ∧
  Machine.summary left_sum small_frame (StrV "All") =
    Ok "🔋 Total Energy Used: 0.02 kWh | 💰 Total Cost: $0.00".
Proof. by vm_compute. Qed.

(** The overflowed energy of [huge_frame] is printed as it is stored. *)
Example summary_huge :
  Machine.summary left_sum huge_frame (StrV "All") =
    Ok ("🔋 Total Energy Used: -2446744073709551.50 kWh | " ++
        "💰 Total Cost: $-367011611056432.69")%string.
Proof. by vm_compute. Qed.

(** Ties go to the even hundredth; a value prints by what the binary64
    number is, not by its shortest decimal; the values that are not finite
    print as words. *)
Example format_2f_samples :
  Machine.format_2f (PrimFloat.div 125 1000) = "0.12" ∧
  Machine.format_2f (PrimFloat.div 375 1000) = "0.38" ∧
  Machine.format_2f (PrimFloat.div 2675 1000) = "2.67" ∧
  Machine.format_2f (PrimFloat.opp 0) = "-0.00" ∧
  Machine.format_2f PrimFloat.nan = "nan" ∧
  Machine.format_2f PrimFloat.infinity = "inf" ∧
  Machine.format_2f PrimFloat.neg_infinity = "-inf".
Proof. by vm_compute. Qed.

(** ** Dates (line 43) *)








